(** * graze/golang-service: HTTP middleware

    A shallow embedding of the API-key authentication middleware
    ([handlers/auth/apikey.go]) and of the request-logging handlers
    ([handlers]: structured sink, statsd sink, URI normalisation, response
    capture), with the properties their specification states. *)

From Stdlib Require Import ZArith Ascii String List.
From Stdlib Require Import DecimalString DecimalN DecimalZ.
From Stdlib Require Import PrimFloat FloatOps SpecFloat.
From stdpp Require Import base option list strings gmap.

Local Open Scope Z_scope.
Local Open Scope string_scope.
Local Open Scope list_scope.

(** ** Go's [strings] package, as far as the handlers use it *)

Module GoStrings.

(** [strings.Split(s, sep)] for a one-byte separator: every occurrence of
    [sep] cuts, empty pieces are kept, and the result always has
    [count sep s + 1] elements (so [Split "" sep = [""]]). *)
Fixpoint Split (s : string) (sep : ascii) : list string :=
  match s with
  | EmptyString => [EmptyString]
  | String c s' =>
      if Ascii.eqb c sep then EmptyString :: Split s' sep
      else match Split s' sep with
           | p :: ps => String c p :: ps
           | [] => [String c EmptyString]
           end
  end.

(** [strings.Join(elems, sep)]. *)
Fixpoint Join (elems : list string) (sep : string) : string :=
  match elems with
  | [] => ""
  | [e] => e
  | e :: es => e +:+ sep +:+ Join es sep
  end.

(** Number of occurrences of the byte [sep] in [s]. *)
Fixpoint Count (s : string) (sep : ascii) : nat :=
  match s with
  | EmptyString => 0%nat
  | String c s' => ((if Ascii.eqb c sep then 1 else 0) + Count s' sep)%nat
  end.

(** The white space of [unicode.IsSpace] within ASCII. *)
Definition isSpace (c : ascii) : bool :=
  let n := nat_of_ascii c in
  ((9 <=? n) && (n <=? 13) || (n =? 32))%nat.

(** The white-space separated tokens of [s], as [strings.Fields] gives
    them: the maximal non-empty runs of non-space bytes.  [cur] is the run
    being read, in reverse. *)
Fixpoint fields_go (cur : list ascii) (s : string) : list string :=
  let flush := match cur with
               | [] => []
               | _ => [string_of_list_ascii (rev cur)]
               end in
  match s with
  | EmptyString => flush
  | String c s' =>
      if isSpace c then flush ++ fields_go [] s'
      else fields_go (c :: cur) s'
  end.

Definition Fields (s : string) : list string := fields_go [] s.

End GoStrings.

(** ** [net/url] and [net/http]: the request data the handlers read *)

Module url.

Record URL := mkURL {
  Host : string;
  Path : string;
  RawQuery : string
}.

End url.

Module http.

Definition StatusOK : Z := 200.
Definition StatusUnauthorized : Z := 401.

(** [http.Header]: a map from header name to the list of its values. *)
Abbreviation Header := (gmap string (list string)).

(** Indexing the map directly, [h[key]]: the nil slice when [key] is not
    in the map. *)
Definition index (h : Header) (key : string) : list string :=
  default [] (h !! key).

(** [h.Get(key)] for a key in canonical form: the first value, or the
    empty string. *)
Definition Get (h : Header) (key : string) : string :=
  match index h key with
  | v :: _ => v
  | [] => ""
  end.

(** [*http.Request].  [V] is the type of the values a request context can
    carry (Go's [interface{}]). *)
Record Request {V : Type} := mkRequest {
  Method : string;
  Proto : string;
  ProtoMajor : Z;
  ProtoMinor : Z;
  Host : string;
  RemoteAddr : string;
  Hdr : Header;
  Ctx : gmap string V
}.
Arguments Request : clear implicits.
Arguments mkRequest {V}.

Definition Referer {V} (r : Request V) : string := Get (Hdr r) "Referer".

End http.

(** ** [handlers/auth]: API-key authentication *)

Module auth.
Import GoStrings http.

Section APIKeyAuth.
(** [V]: context values and identities ([interface{}]); [E]: the errors a
    Finder returns ([error], with [None] for [nil]); [W]: the state of the
    response writer handed to the middleware. *)
Context {V E W : Type}.

(** The four typed errors of [apikey.go]. *)
Inductive AuthError :=
| NoHeaderError
| InvalidFormatError (format header : string)
| BadProviderError (provider expected : string)
| InvalidKeyError (key : string) (err : E).

(** [APIKey]: the configured provider name, the Finder ([Find(creds, r)]
    returns an identity and an error) and the [failure.Handler] called on
    every failure ([Handle(w, r, err, status)], which owns the response). *)
Record APIKey := mkAPIKey {
  Provider : string;
  Finder : string -> Request V -> V * option E;
  OnError : W -> Request V -> AuthError -> Z -> W
}.

(** An inner [http.Handler]: [ServeHTTP(w, r)]. *)
Definition InnerHandler := W -> Request V -> W.

(** The calls the middleware makes on its collaborators. *)
Inductive Call :=
| CallOnError (req : Request V) (err : AuthError) (status : Z)
| CallFind (key : string) (req : Request V)
| CallServeHTTP (req : Request V).

(** The middleware runs against the response writer and records, in order,
    each collaborator call it makes. *)
Definition M (A : Type) : Type := W -> A * W * list Call.

Definition ret {A} (a : A) : M A := fun w => (a, w, []).

Definition bind {A B} (m : M A) (f : A -> M B) : M B :=
  fun w =>
    let '(a, w1, t1) := m w in
    let '(b, w2, t2) := f a w1 in
    (b, w2, t1 ++ t2).

Definition handle (a : APIKey) (req : Request V) (err : AuthError) (status : Z) : M unit :=
  fun w => (tt, OnError a w req err status, [CallOnError req err status]).

Definition find (a : APIKey) (key : string) (req : Request V) : M (V * option E) :=
  fun w => (Finder a key req, w, [CallFind key req]).

Definition serveHTTP (h : InnerHandler) (req : Request V) : M unit :=
  fun w => (tt, h w req, [CallServeHTTP req]).

(** The writer state and the call record a run ends with. *)
Definition writer {A} (m : M A) (w : W) : W := snd (fst (m w)).
Definition calls {A} (m : M A) (w : W) : list Call := snd (m w).

(** Modelled from the spec: [saveUser], defined in another file of package
    [auth], attaches the identity the Finder returned to the request for
    the rest of its life; [GetUser] reads it back. *)
Definition userKey : string := "user".

Definition saveUser (req : Request V) (user : V) : Request V :=
  mkRequest (Method req) (Proto req) (ProtoMajor req) (ProtoMinor req)
            (http.Host req) (RemoteAddr req) (Hdr req)
            (<[userKey := user]> (Ctx req)).

Definition GetUser (req : Request V) : option V := Ctx req !! userKey.

(** The method [Handler] of [APIKey]: the body of the handler function it
    returns. *)
Definition Handler (a : APIKey) (h : InnerHandler) (req : Request V) : M unit :=
  let header := index (Hdr req) "Authorization" in
  if decide (length header = 0%nat) then
    handle a req NoHeaderError StatusUnauthorized
  else
    let header0 := nth 0 header "" in
    let parts := Split header0 " " in
    if decide (length parts <> 2%nat) then
      handle a req (InvalidFormatError "<provider> <apiKey>" header0) StatusUnauthorized
    else
      let provider := nth 0 parts "" in
      let value := nth 1 parts "" in
      if decide (provider <> Provider a) then
        handle a req (BadProviderError provider (Provider a)) StatusUnauthorized
      else
        bind (find a value req) (fun '(user, err) =>
          match err with
          | Some e => handle a req (InvalidKeyError value e) StatusUnauthorized
          | None => let req := saveUser req user in serveHTTP h req
          end).

(** [Then] and [ThenFunc] both delegate to [Handler]. *)
Definition Then (a : APIKey) (h : InnerHandler) : Request V -> M unit := Handler a h.
Definition ThenFunc (a : APIKey) (fn : W -> Request V -> W) : Request V -> M unit := Handler a fn.

(** How often the error handler, the Finder and the inner handler are called. *)
Definition isOnError (c : Call) : bool :=
  match c with CallOnError _ _ _ => true | _ => false end.
Definition isFind (c : Call) : bool :=
  match c with CallFind _ _ => true | _ => false end.
Definition isServeHTTP (c : Call) : bool :=
  match c with CallServeHTTP _ => true | _ => false end.

Definition countCalls (p : Call -> bool) (t : list Call) : nat :=
  length (List.filter p t).

(** A run that fails with [err]: the error handler is called for the
    request at hand with [err] and status 401, it is the only call of the
    error handler, the inner handler is not called, and the response
    writer ends as the error handler left it. *)
Definition failsWith (a : APIKey) (h : InnerHandler) (req : Request V) (w : W)
    (err : AuthError) : Prop :=
  CallOnError req err StatusUnauthorized ∈ calls (Handler a h req) w /\
  countCalls isOnError (calls (Handler a h req) w) = 1%nat /\
  countCalls isServeHTTP (calls (Handler a h req) w) = 0%nat /\
  writer (Handler a h req) w = OnError a w req err StatusUnauthorized.

End APIKeyAuth.

Arguments AuthError : clear implicits.
Arguments APIKey : clear implicits.
Arguments Call : clear implicits.
Arguments InnerHandler : clear implicits.

End auth.

(** A concrete setting to run the middleware in: identities, lookup errors
    and context values are strings, and the response writer is the list of
    what was written to it. *)
Module AuthExample.
Import http auth.

Definition users (key : string) (_ : Request string) : string * option string :=
  if decide (key = "goodkey") then ("alice", None)
  else ("", Some ("No user found for: " +:+ key)).

Definition onError (w : list string) (_ : Request string)
    (_ : AuthError string) (status : Z) : list string :=
  w ++ ["status " +:+ (if decide (status = 401) then "401" else "other")].

Definition keyAuth : APIKey string string (list string) :=
  mkAPIKey "Graze" users onError.

Definition thing (w : list string) (req : Request string) : list string :=
  w ++ ["hello " +:+ default "nobody" (GetUser req)].

Definition request (hdr : Header) : Request string :=
  mkRequest "GET" "HTTP/1.1" 1 1 "example.com" "192.168.100.5" hdr ∅.

Definition withAuthorization (v : string) : Header :=
  {[ "Authorization" := [v] ]}.

End AuthExample.

(** ** [time], [strconv] and numeric conversions *)

Module time.

(** [time.Duration]: a signed count of nanoseconds. *)
Definition Duration := Z.

Definition Nanosecond : Duration := 1.
Definition Microsecond : Duration := 1000 * Nanosecond.
Definition Millisecond : Duration := 1000 * Microsecond.
Definition Second : Duration := 1000 * Millisecond.

Definition Nanoseconds (d : Duration) : Z := d.

End time.

Module strconv.

(** [strconv.Itoa]: decimal digits, with a minus sign for negatives. *)
Definition Itoa (z : Z) : string := NilZero.string_of_int (Z.to_int z).

(** The decimal digit of [n mod 10]. *)
Definition digit (n : Z) : ascii := ascii_of_nat (48 + Z.to_nat (n mod 10)).

(** The last [width] decimal digits of [n], most significant first. *)
Fixpoint lastDigits (width : nat) (n : Z) : string :=
  match width with
  | O => ""
  | S w => lastDigits w (n / 10) +:+ String (digit n) ""
  end.


End strconv.

(** Go's conversion [float64(n)] of an integer: the nearest binary64 value,
    ties to even. *)
Definition float64 (n : Z) : float :=
  SF2Prim (binary_normalize prec emax n 0 false).

(** ** The logging backend ([log] package of the repository) *)

Module log.

(** A field value: the event stores strings, integers and one float. *)
Inductive Value :=
| VString (s : string)
| VInt (n : Z)
| VFloat (f : float).

(** [log.F]: a mapping of field names to values. *)
Abbreviation F := (gmap string Value).

Inductive Level := DebugLevel | InfoLevel | WarnLevel | ErrorLevel.

(** One record handed to the backend. *)
Record Entry := mkEntry {
  level : Level;
  fields : F;
  message : string
}.

(** A [LogContext] is the set of fields it has gathered. *)
Record LogContext := mkContext { Get : F }.

(** Modelled from the spec: [With], defined in the [log] package, merges
    the given fields into the context; a field given now replaces a field
    of the same name gathered earlier, so that the fields of the event,
    which are given last, are not overridden by the caller's. *)
Definition With (c : LogContext) (f : F) : LogContext :=
  mkContext (f ∪ Get c).

(** [Infof] with the message already formatted: one informational record. *)
Definition Info (c : LogContext) (msg : string) : list Entry :=
  [mkEntry InfoLevel (Get c) msg].

End log.

(** ** The metrics transport (statsd client) *)

Module statsd.

Record Client := mkClient {
  Namespace : string;
  Tags : list string
}.

(** Modelled from the spec: the transport is an external collaborator that
    accepts a metric (name, value, type, tags), puts its own namespace
    before the name and its static tags before the metric's tags, and
    sends one line [<namespace><name>:<value>|<type>|#<tags>], as the
    expected lines of [TestStatsdLogging] show. *)
Definition format (c : Client) (name value typ : string) (tags : list string) : string :=
  let all := Tags c ++ tags in
  Namespace c +:+ name +:+ ":" +:+ value +:+ "|" +:+ typ +:+
  match all with
  | [] => ""
  | _ => "|#" +:+ GoStrings.Join all ","
  end.

(** Modelled from the spec: a duration as milliseconds, written as a
    decimal with six fractional digits.  A duration counts nanoseconds, so
    the six digits are exact. *)
Definition milliseconds (d : time.Duration) : string :=
  let a := Z.abs (time.Nanoseconds d) in
  (if (d <? 0)%Z then "-" else "") +:+
  strconv.Itoa (a / time.Millisecond) +:+ "." +:+
  strconv.lastDigits 6 (a mod time.Millisecond).

(** A timing metric and a counter increment, one line each. *)
Definition TimeInMilliseconds (c : Client) (name : string) (d : time.Duration)
    (tags : list string) : string :=
  format c name (milliseconds d) "ms" tags.

Definition Incr (c : Client) (name : string) (tags : list string) : string :=
  format c name "1" "c" tags.

End statsd.

(** ** [handlers]: request logging *)

Module handlers.
Import http url.

(** *** Response capture *)

(** What a handler does to a response writer. *)
Inductive WriterOp :=
| SetHeader (key value : string)
| WriteHeader (status : Z)
| Write (body : list Byte.byte).

(** Modelled from the spec: the [LoggingResponseWriter] that
    [writeStructuredLog] receives is declared in another file of the
    package.  It passes every operation through to the writer it wraps
    ([passed], in order), records the status code (nothing before the
    first status write or body write; the first explicit status, or 200 if
    body bytes are written while no status is recorded; never changed once
    recorded) and accumulates the number of body bytes written.  It also
    carries the log context [GetContext] returns. *)
Record LoggingResponseWriter := mkWriter {
  passed : list WriterOp;
  Status : option Z;
  Size : Z;
  GetContext : log.LogContext
}.

Definition newWriter (c : log.LogContext) : LoggingResponseWriter :=
  mkWriter [] None 0 c.

Definition apply (l : LoggingResponseWriter) (op : WriterOp) : LoggingResponseWriter :=
  match op with
  | SetHeader _ _ =>
      mkWriter (passed l ++ [op]) (Status l) (Size l) (GetContext l)
  | WriteHeader s =>
      mkWriter (passed l ++ [op])
               (match Status l with None => Some s | Some s0 => Some s0 end)
               (Size l) (GetContext l)
  | Write b =>
      mkWriter (passed l ++ [op])
               (match Status l with None => Some StatusOK | Some s0 => Some s0 end)
               (Size l + Z.of_nat (length b)) (GetContext l)
  end.

Definition applyAll (l : LoggingResponseWriter) (ops : list WriterOp) : LoggingResponseWriter :=
  fold_left apply ops l.

(** Reading a sequence of operations: the status it sets explicitly,
    whether any body write occurs, and the total of the body bytes.  A
    status is set explicitly by the first status write, provided no body
    write comes before it: a status write that comes after body bytes or
    after another status write sets nothing. *)
Fixpoint explicitStatus (ops : list WriterOp) : option Z :=
  match ops with
  | [] => None
  | SetHeader _ _ :: ops' => explicitStatus ops'
  | WriteHeader s :: _ => Some s
  | Write _ :: _ => None
  end.

Definition isWrite (op : WriterOp) : bool :=
  match op with Write _ => true | _ => false end.

Definition isSetHeader (op : WriterOp) : bool :=
  match op with SetHeader _ _ => true | _ => false end.

Definition bytesOf (op : WriterOp) : Z :=
  match op with Write b => Z.of_nat (length b) | _ => 0 end.

Fixpoint totalBytes (ops : list WriterOp) : Z :=
  match ops with
  | [] => 0
  | op :: ops' => bytesOf op + totalBytes ops'
  end.

(** *** URI normalisation *)

Section Normalizer.
Context {V : Type}.

(** Modelled from the spec: [parseUri] and [uriPath] are defined in another
    file of the package (only their tests and callers are at hand).  For
    an HTTP/2 CONNECT request both return the request's host:port
    authority unchanged; otherwise [parseUri] returns the path, with [?]
    and the raw query after it when the query is not empty, and [uriPath]
    the path alone; an empty path is [/]. *)
Definition isConnect2 (req : Request V) : bool :=
  (ProtoMajor req =? 2)%Z && String.eqb (Method req) "CONNECT".

Definition pathOrRoot (u : URL) : string :=
  if String.eqb (Path u) "" then "/" else Path u.

Definition parseUri (req : Request V) (u : URL) : string :=
  if isConnect2 req then http.Host req
  else pathOrRoot u +:+
       (if String.eqb (RawQuery u) "" then "" else "?" +:+ RawQuery u).

Definition uriPath (req : Request V) (u : URL) : string :=
  if isConnect2 req then http.Host req
  else pathOrRoot u.

End Normalizer.

(** *** The sinks *)

Section Sinks.
(** [Time] stands for [time.Time] and [RFC3339Nano] for its formatting with
    that layout. *)
Context {V Time : Type} (RFC3339Nano : Time -> string).

(** The field literal of [writeStructuredLog]. *)
Definition eventFields (req : Request V) (u : URL) (ts : Time)
    (dur : time.Duration) (status size : Z) : log.F :=
  let sDur := (float64 (time.Nanoseconds dur) /
               (float64 time.Second / float64 time.Nanosecond))%float in
  let uri := parseUri req u in
  list_to_map [
    ("tag", log.VString "request_handled");
    ("http.method", log.VString (Method req));
    ("http.protocol", log.VString (Proto req));
    ("http.uri", log.VString uri);
    ("http.path", log.VString (uriPath req u));
    ("http.host", log.VString (http.Host req));
    ("http.status", log.VInt status);
    ("http.bytes", log.VInt size);
    ("dur", log.VFloat sDur);
    ("ts", log.VString (RFC3339Nano ts));
    ("http.ref", log.VString (Referer req));
    ("http.user", log.VString (Get (Hdr req) "X-Forwarded-For"))
  ].

(** [writeStructuredLog]: the records handed to the logging backend. *)
Definition writeStructuredLog (w : LoggingResponseWriter) (context : log.LogContext)
    (req : Request V) (u : URL) (ts : Time) (dur : time.Duration)
    (status size : Z) : list log.Entry :=
  let uri := parseUri req u in
  log.Info
    (log.With (log.With (GetContext w) (log.Get context))
              (eventFields req u ts dur status size))
    (Method req +:+ " " +:+ uri +:+ " " +:+ Proto req).

(** The names of the fields every structured record carries. *)
Definition eventKeys : list string :=
  ["tag"; "http.method"; "http.protocol"; "http.uri"; "http.path"; "http.host";
   "http.status"; "http.bytes"; "dur"; "ts"; "http.ref"; "http.user"].

(** Modelled from the spec: [writeStatsdLog], defined in another file of the
    package (only its test is at hand), sends a timing metric
    [request.response_time] and a counter [request.count], both tagged
    with the endpoint (the path, without the query), the status code and
    the method.  The result is the lines the transport sends. *)
Definition statsdTags (req : Request V) (u : URL) (status : Z) : list string :=
  [ "endpoint:" +:+ uriPath req u;
    "statusCode:" +:+ strconv.Itoa status;
    "method:" +:+ Method req ].

Definition writeStatsdLog (w : statsd.Client) (req : Request V) (u : URL) (ts : Time)
    (dur : time.Duration) (status size : Z) : list string :=
  let tags := statsdTags req u status in
  [ statsd.TimeInMilliseconds w "request.response_time" dur tags;
    statsd.Incr w "request.count" tags ].

End Sinks.

End handlers.

(** The requests and the client of the package's tests. *)
Module HandlersExample.
Import http url handlers.

(** [newRequest("GET", "http://example.com")] and its parsed URL. *)
Definition basicRequest : Request string :=
  mkRequest "GET" "HTTP/1.1" 1 1 "example.com" "" ∅ ∅.
Definition basicURL : URL := mkURL "example.com" "" "".

(** The CONNECT request over HTTP/2 of [TestParseUri] and [TestUriPath]. *)
Definition http2Request : Request string :=
  mkRequest "CONNECT" "HTTP/2.0" 2 0 "www.example.com:443" "192.168.100.5" ∅ ∅.
Definition http2URL : URL := mkURL "www.example.com:443" "" "".

Definition paramsURL : URL := mkURL "example.com" "/path" "query=value".
Definition pathURL : URL := mkURL "example.com" "/path" "".

(** [newRequest("POST", "http://example.com/path/here")]. *)
Definition postRequest : Request string :=
  mkRequest "POST" "HTTP/1.1" 1 1 "example.com" "" ∅ ∅.
Definition postURL : URL := mkURL "example.com" "/path/here" "".

(** The statsd client of [TestStatsdLogging], and the same without a
    namespace. *)
Definition testClient : statsd.Client :=
  statsd.mkClient "service.logging.live." ["test"].
Definition plainClient : statsd.Client := statsd.mkClient "" ["test"].

(** A caller context that names two of the event's fields and one of its
    own, and a writer context with one more. *)
Definition callerContext : log.LogContext :=
  log.mkContext (list_to_map [
    ("module", log.VString "request.handler");
    ("http.status", log.VInt 999);
    ("tag", log.VString "mine")
  ]).
Definition writerContext : log.LogContext :=
  log.mkContext (list_to_map [
    ("app", log.VString "service");
    ("http.uri", log.VString "/elsewhere")
  ]).

Definition hello : list Byte.byte := String.list_byte_of_string "hello".

End HandlersExample.

(** ** The messages of the authentication errors *)

Module AuthErrors.
Import auth.

Section Messages.
(** [message] stands for the [Error] method of the error a Finder returns. *)
Context {E : Type} (message : E -> string).

(** The four [Error] methods of [apikey.go]. *)
Definition Error (e : AuthError E) : string :=
  match e with
  | NoHeaderError => "no Authorization header provided"
  | InvalidFormatError format header =>
      "provided Authorization header in invalid format, expecting: " +:+ format +:+
      " got: " +:+ header
  | BadProviderError provider expected =>
      "Authroziation provider does not match. Expecting: " +:+ expected +:+
      " got: " +:+ provider
  | InvalidKeyError key err =>
      "provided api key: '" +:+ key +:+ "' is not valid: " +:+ message err
  end.

End Messages.

(** Whether two errors are of the same one of the four types. *)
Definition sameType {E} (e1 e2 : AuthError E) : bool :=
  match e1, e2 with
  | NoHeaderError, NoHeaderError => true
  | InvalidFormatError _ _, InvalidFormatError _ _ => true
  | BadProviderError _ _, BadProviderError _ _ => true
  | InvalidKeyError _ _, InvalidKeyError _ _ => true
  | _, _ => false
  end.

End AuthErrors.

(** * Properties *)

(** ** [strings.Split] *)

Section SplitFacts.
Import GoStrings.

Lemma Split_length (s : string) (sep : ascii) :
  length (Split s sep) = S (Count s sep).
Proof.
  induction s as [|c s IH]; simpl; [reflexivity|].
  destruct (Ascii.eqb c sep); simpl.
  - now rewrite IH.
  - destruct (Split s sep) as [|p ps]; simpl in *; congruence.
Qed.

Lemma Split_two_iff (s : string) (sep : ascii) :
  length (Split s sep) = 2%nat <-> Count s sep = 1%nat.
Proof. rewrite Split_length. lia. Qed.

Lemma Split_empty (sep : ascii) : Split "" sep = [""].
Proof. reflexivity. Qed.

End SplitFacts.

(** ** The API-key middleware, path by path *)

Section HandlerPaths.
Import GoStrings http auth.
Context {V E W : Type}.
Implicit Types (a : APIKey V E W) (h : InnerHandler V W) (req : Request V) (w : W).

Lemma index_absent req :
  Hdr req !! "Authorization" = None -> index (Hdr req) "Authorization" = [].
Proof. unfold index. now intros ->. Qed.

Lemma index_present req l :
  Hdr req !! "Authorization" = Some l -> index (Hdr req) "Authorization" = l.
Proof. unfold index. now intros ->. Qed.

Lemma Handler_no_header a h req w :
  index (Hdr req) "Authorization" = [] ->
  Handler a h req w =
    (tt, OnError a w req NoHeaderError StatusUnauthorized,
     [CallOnError req NoHeaderError StatusUnauthorized]).
Proof. intros Hi. unfold Handler. rewrite Hi. reflexivity. Qed.

Lemma Handler_invalid_format a h req w v0 rest :
  index (Hdr req) "Authorization" = v0 :: rest ->
  length (Split v0 " ") <> 2%nat ->
  Handler a h req w =
    (tt, OnError a w req (InvalidFormatError "<provider> <apiKey>" v0) StatusUnauthorized,
     [CallOnError req (InvalidFormatError "<provider> <apiKey>" v0) StatusUnauthorized]).
Proof.
  intros Hi Hn. unfold Handler. rewrite Hi. simpl.
  destruct (decide (length (Split v0 " ") <> 2%nat)); [reflexivity | contradiction].
Qed.

Lemma Handler_bad_provider a h req w v0 rest provider key :
  index (Hdr req) "Authorization" = v0 :: rest ->
  Split v0 " " = [provider; key] ->
  provider <> Provider a ->
  Handler a h req w =
    (tt, OnError a w req (BadProviderError provider (Provider a)) StatusUnauthorized,
     [CallOnError req (BadProviderError provider (Provider a)) StatusUnauthorized]).
Proof.
  intros Hi Hs Hp. unfold Handler. rewrite Hi. simpl. rewrite Hs. simpl.
  destruct (decide (provider <> Provider a)); [reflexivity | contradiction].
Qed.

Lemma Handler_invalid_key a h req w v0 rest key user e :
  index (Hdr req) "Authorization" = v0 :: rest ->
  Split v0 " " = [Provider a; key] ->
  Finder a key req = (user, Some e) ->
  Handler a h req w =
    (tt, OnError a w req (InvalidKeyError key e) StatusUnauthorized,
     [CallFind key req; CallOnError req (InvalidKeyError key e) StatusUnauthorized]).
Proof.
  intros Hi Hs Hf. unfold Handler. rewrite Hi. simpl. rewrite Hs. simpl.
  destruct (decide (Provider a <> Provider a)); [congruence|].
  unfold bind, find. rewrite Hf. reflexivity.
Qed.

Lemma Handler_key_valid a h req w v0 rest key user :
  index (Hdr req) "Authorization" = v0 :: rest ->
  Split v0 " " = [Provider a; key] ->
  Finder a key req = (user, None) ->
  Handler a h req w =
    (tt, h w (saveUser req user),
     [CallFind key req; CallServeHTTP (saveUser req user)]).
Proof.
  intros Hi Hs Hf. unfold Handler. rewrite Hi. simpl. rewrite Hs. simpl.
  destruct (decide (Provider a <> Provider a)); [congruence|].
  unfold bind, find. rewrite Hf. reflexivity.
Qed.

(** Every run either fails, calling the error handler last and once, or
    serves the request. *)
Lemma Handler_paths a h req w :
  (exists err pre,
      Handler a h req w =
        (tt, OnError a w req err StatusUnauthorized,
         pre ++ [CallOnError req err StatusUnauthorized]) /\
      (pre = [] \/ exists key, pre = [CallFind key req])) \/
  (exists key user,
      Handler a h req w =
        (tt, h w (saveUser req user),
         [CallFind key req; CallServeHTTP (saveUser req user)])).
Proof.
  destruct (index (Hdr req) "Authorization") as [|v0 rest] eqn:Hi.
  { left. exists NoHeaderError, []. split; [|now left].
    now apply Handler_no_header. }
  destruct (decide (length (Split v0 " ") = 2%nat)) as [Hl|Hl].
  2:{ left. exists (InvalidFormatError "<provider> <apiKey>" v0), [].
      split; [|now left]. now apply Handler_invalid_format with (rest := rest). }
  destruct (Split v0 " ") as [|p [|k [|? ?]]] eqn:Hs; try discriminate Hl.
  destruct (decide (p = Provider a)) as [->|Hp].
  2:{ left. exists (BadProviderError p (Provider a)), [].
      split; [|now left].
      now apply Handler_bad_provider with (v0 := v0) (rest := rest) (key := k). }
  destruct (Finder a k req) as [user [e|]] eqn:Hf.
  - left. exists (InvalidKeyError k e), [CallFind k req].
    split; [|right; now exists k].
    now apply Handler_invalid_key with (v0 := v0) (rest := rest) (user := user).
  - right. exists k, user.
    now apply Handler_key_valid with (v0 := v0) (rest := rest).
Qed.

End HandlerPaths.

(** ** Claims about the API-key middleware *)

Section APIKeyClaims.
Import GoStrings http auth.
Context {V E W : Type}.
Implicit Types (a : APIKey V E W) (h : InnerHandler V W) (req : Request V) (w : W).

(** Any call of the error handler is for the request at hand, with status
    401, the only one of the run, with no call of the inner handler. *)
Lemma OnError_call_inv a h req w r (err : AuthError E) status :
  CallOnError r err status ∈ calls (Handler a h req) w ->
  r = req /\ status = StatusUnauthorized /\
  countCalls isOnError (calls (Handler a h req) w) = 1%nat /\
  countCalls isServeHTTP (calls (Handler a h req) w) = 0%nat /\
  writer (Handler a h req) w = OnError a w req err StatusUnauthorized.
Proof.
  unfold calls, writer.
  destruct (Handler_paths a h req w) as [(err' & pre & -> & Hpre) | (key & user & ->)];
    simpl; intros Hin.
  - assert (Heq : CallOnError r err status = CallOnError req err' StatusUnauthorized).
    { destruct Hpre as [-> | [key ->]]; simpl in Hin.
      - now apply list_elem_of_singleton in Hin.
      - apply elem_of_cons in Hin as [Hin | Hin]; [discriminate Hin|].
        now apply list_elem_of_singleton in Hin. }
    injection Heq as -> -> ->.
    destruct Hpre as [-> | [key ->]]; repeat split; reflexivity.
  - apply elem_of_cons in Hin as [Hin | Hin]; [discriminate Hin|].
    apply list_elem_of_singleton in Hin. discriminate Hin.
Qed.

(** The four failing paths, each under the condition that selects it. *)
Lemma failsWith_intro a h req w (err : AuthError E) pre :
  Handler a h req w =
    (tt, OnError a w req err StatusUnauthorized,
     pre ++ [CallOnError req err StatusUnauthorized]) ->
  (pre = [] \/ exists key, pre = [CallFind key req]) ->
  failsWith a h req w err.
Proof.
  intros Hrun Hpre. unfold failsWith, calls, writer, countCalls. rewrite Hrun.
  destruct Hpre as [-> | [key ->]]; simpl.
  - split; [apply list_elem_of_here|]. now repeat split.
  - split; [apply list_elem_of_further, list_elem_of_here|]. now repeat split.
Qed.

(** C3. Each of the four failures makes the middleware call the error
    handler, exactly once and with status 401: a request without an
    Authorization value fails with NoHeader, a first value that does not
    split into two pieces with InvalidFormat, a first piece other than the
    configured provider with BadProvider, an error of the Finder with
    InvalidKey.  In each case the inner handler is not called and the
    response writer ends as the error handler left it, so the middleware
    writes nothing itself; and the error handler is called in no other
    way. *)
Theorem apikey_each_failure_calls_error_handler_once a h req w :
  (index (Hdr req) "Authorization" = [] ->
   failsWith a h req w NoHeaderError) /\
  (forall v0 rest,
     index (Hdr req) "Authorization" = v0 :: rest ->
     length (Split v0 " ") <> 2%nat ->
     failsWith a h req w (InvalidFormatError "<provider> <apiKey>" v0)) /\
  (forall v0 rest provider key,
     index (Hdr req) "Authorization" = v0 :: rest ->
     Split v0 " " = [provider; key] ->
     provider <> Provider a ->
     failsWith a h req w (BadProviderError provider (Provider a))) /\
  (forall v0 rest key user e,
     index (Hdr req) "Authorization" = v0 :: rest ->
     Split v0 " " = [Provider a; key] ->
     Finder a key req = (user, Some e) ->
     failsWith a h req w (InvalidKeyError key e)) /\
  (forall r err status,
     CallOnError r err status ∈ calls (Handler a h req) w ->
     r = req /\ status = StatusUnauthorized /\ failsWith a h req w err).
Proof.
  split; [|split; [|split; [|split]]].
  - intros Hi. apply failsWith_intro with (pre := []); [|now left].
    now apply Handler_no_header.
  - intros v0 rest Hi Hl. apply failsWith_intro with (pre := []); [|now left].
    now apply Handler_invalid_format with (rest := rest).
  - intros v0 rest provider key Hi Hs Hp.
    apply failsWith_intro with (pre := []); [|now left].
    now apply Handler_bad_provider with (v0 := v0) (rest := rest) (key := key).
  - intros v0 rest key user e Hi Hs Hf.
    apply failsWith_intro with (pre := [CallFind key req]); [|right; now exists key].
    now apply Handler_invalid_key with (v0 := v0) (rest := rest) (user := user).
  - intros r err status Hin.
    destruct (OnError_call_inv a h req w r err status Hin) as (-> & -> & Hc & Hs & Hw).
    split; [reflexivity|]. split; [reflexivity|].
    unfold failsWith. auto.
Qed.

(** C4, as amended.  With no Authorization header the middleware fails with
    NoHeader and status 401; with a header whose first value does not
    contain exactly one space (cut at every space, empty pieces kept, it
    does not give exactly two pieces) it fails with InvalidFormat and
    status 401.  In both cases the error handler is the only collaborator
    called, so the inner handler is not invoked. *)
Theorem apikey_absent_or_malformed_header a h req w :
  (Hdr req !! "Authorization" = None ->
   Handler a h req w =
     (tt, OnError a w req NoHeaderError StatusUnauthorized,
      [CallOnError req NoHeaderError StatusUnauthorized])) /\
  (forall v0 rest,
     Hdr req !! "Authorization" = Some (v0 :: rest) ->
     Count v0 " " <> 1%nat ->
     Handler a h req w =
       (tt, OnError a w req (InvalidFormatError "<provider> <apiKey>" v0) StatusUnauthorized,
        [CallOnError req (InvalidFormatError "<provider> <apiKey>" v0) StatusUnauthorized])).
Proof.
  split.
  - intros Hn. apply Handler_no_header. now apply index_absent.
  - intros v0 rest Hs Hc. apply Handler_invalid_format with (rest := rest).
    + now apply index_present.
    + now rewrite Split_two_iff.
Qed.

(** C5. When the first Authorization value splits into a provider and a
    key: a provider other than the configured one gives BadProvider and
    the Finder is not called; otherwise the Finder is called with the key
    and the request, its error gives InvalidKey carrying that error with
    the inner handler not called, and its success has the inner handler
    called on the request with the identity attached, with no call of the
    error handler. *)
Theorem apikey_provider_then_finder a h req w v0 rest provider key :
  Hdr req !! "Authorization" = Some (v0 :: rest) ->
  Split v0 " " = [provider; key] ->
  (provider <> Provider a ->
   Handler a h req w =
     (tt, OnError a w req (BadProviderError provider (Provider a)) StatusUnauthorized,
      [CallOnError req (BadProviderError provider (Provider a)) StatusUnauthorized])) /\
  (provider = Provider a ->
   forall user err, Finder a key req = (user, err) ->
     match err with
     | Some e =>
         Handler a h req w =
           (tt, OnError a w req (InvalidKeyError key e) StatusUnauthorized,
            [CallFind key req;
             CallOnError req (InvalidKeyError key e) StatusUnauthorized])
     | None =>
         Handler a h req w =
           (tt, h w (saveUser req user),
            [CallFind key req; CallServeHTTP (saveUser req user)]) /\
         GetUser (saveUser req user) = Some user
     end).
Proof.
  intros Hh Hs. apply index_present in Hh. split.
  - intros Hp. now apply Handler_bad_provider with (v0 := v0) (rest := rest) (key := key).
  - intros -> user [e|] Hf.
    + now apply Handler_invalid_key with (v0 := v0) (rest := rest) (user := user).
    + split.
      * now apply Handler_key_valid with (v0 := v0) (rest := rest).
      * unfold GetUser, saveUser. simpl. apply lookup_insert_eq.
Qed.

(** C10. An Authorization header whose first value is the empty string
    gives InvalidFormat carrying that empty header, with status 401; and
    NoHeader is reported only when the request has no Authorization value
    at all. *)
Theorem apikey_empty_header_value a h req w :
  (forall rest,
     Hdr req !! "Authorization" = Some ("" :: rest) ->
     Handler a h req w =
       (tt, OnError a w req (InvalidFormatError "<provider> <apiKey>" "") StatusUnauthorized,
        [CallOnError req (InvalidFormatError "<provider> <apiKey>" "") StatusUnauthorized])) /\
  (forall r status,
     CallOnError r NoHeaderError status ∈ calls (Handler a h req) w ->
     Hdr req !! "Authorization" = None \/ Hdr req !! "Authorization" = Some []).
Proof.
  split.
  - intros rest Hs. apply Handler_invalid_format with (rest := rest).
    + now apply index_present.
    + rewrite Split_empty. simpl. lia.
  - intros r status Hin.
    destruct (Hdr req !! "Authorization") as [[|v0 rest]|] eqn:Hh; [now right | | now left].
    exfalso. apply index_present in Hh. revert Hin. unfold calls.
    destruct (decide (length (Split v0 " ") = 2%nat)) as [Hl|Hl].
    + destruct (Split v0 " ") as [|p [|k [|? ?]]] eqn:Hs; try discriminate Hl.
      destruct (decide (p = Provider a)) as [->|Hp].
      * destruct (Finder a k req) as [user [e|]] eqn:Hf.
        -- rewrite (Handler_invalid_key a h req w v0 rest k user e Hh Hs Hf). simpl.
           intros Hin. apply elem_of_cons in Hin as [Hin|Hin]; [discriminate Hin|].
           apply list_elem_of_singleton in Hin. discriminate Hin.
        -- rewrite (Handler_key_valid a h req w v0 rest k user Hh Hs Hf). simpl.
           intros Hin. apply elem_of_cons in Hin as [Hin|Hin]; [discriminate Hin|].
           apply list_elem_of_singleton in Hin. discriminate Hin.
      * rewrite (Handler_bad_provider a h req w v0 rest p k Hh Hs Hp). simpl.
        intros Hin. apply list_elem_of_singleton in Hin. discriminate Hin.
    + rewrite (Handler_invalid_format a h req w v0 rest Hh Hl). simpl.
      intros Hin. apply list_elem_of_singleton in Hin. discriminate Hin.
Qed.

End APIKeyClaims.

(** ** The middleware on concrete requests *)

Section APIKeyRuns.
Import GoStrings http auth AuthExample.

(** The five requests of the specification's test list. *)
Example run_missing_header :
  calls (Handler keyAuth thing (request ∅)) [] =
    [CallOnError (request ∅) NoHeaderError 401].
Proof. reflexivity. Qed.

Example run_only_one_token :
  let req := request (withAuthorization "onlyonetoken") in
  calls (Handler keyAuth thing req) [] =
    [CallOnError req (InvalidFormatError "<provider> <apiKey>" "onlyonetoken") 401].
Proof. vm_compute. reflexivity. Qed.

Example run_wrong_provider :
  let req := request (withAuthorization "Wrong key") in
  calls (Handler keyAuth thing req) [] =
    [CallOnError req (BadProviderError "Wrong" "Graze") 401].
Proof. vm_compute. reflexivity. Qed.

Example run_bad_key :
  let req := request (withAuthorization "Graze badkey") in
  calls (Handler keyAuth thing req) [] =
    [CallFind "badkey" req;
     CallOnError req (InvalidKeyError "badkey" "No user found for: badkey") 401].
Proof. vm_compute. reflexivity. Qed.

Example run_good_key :
  let req := request (withAuthorization "Graze goodkey") in
  Handler keyAuth thing req [] =
    (tt, ["hello alice"],
     [CallFind "goodkey" req; CallServeHTTP (saveUser req "alice")]).
Proof. vm_compute. reflexivity. Qed.

Lemma apikey_each_failure_calls_error_handler_once_witness :
  let req1 := request ∅ in
  let req2 := request (withAuthorization "onlyonetoken") in
  let req3 := request (withAuthorization "Wrong key") in
  let req4 := request (withAuthorization "Graze badkey") in
  (index (Hdr req1) "Authorization" = [] /\
   failsWith keyAuth thing req1 [] NoHeaderError) /\
  (index (Hdr req2) "Authorization" = ["onlyonetoken"] /\
   length (Split "onlyonetoken" " ") <> 2%nat /\
   failsWith keyAuth thing req2 []
     (InvalidFormatError "<provider> <apiKey>" "onlyonetoken")) /\
  (index (Hdr req3) "Authorization" = ["Wrong key"] /\
   Split "Wrong key" " " = ["Wrong"; "key"] /\ "Wrong" <> Provider keyAuth /\
   failsWith keyAuth thing req3 [] (BadProviderError "Wrong" "Graze")) /\
  (index (Hdr req4) "Authorization" = ["Graze badkey"] /\
   Split "Graze badkey" " " = ["Graze"; "badkey"] /\
   users "badkey" req4 = ("", Some "No user found for: badkey") /\
   failsWith keyAuth thing req4 []
     (InvalidKeyError "badkey" "No user found for: badkey") /\
   writer (Handler keyAuth thing req4) [] = ["status 401"]).
Proof.
  intros req1 req2 req3 req4.
  assert (I1 : index (Hdr req1) "Authorization" = []) by reflexivity.
  assert (I2 : index (Hdr req2) "Authorization" = ["onlyonetoken"])
    by (vm_compute; reflexivity).
  assert (L2 : length (Split "onlyonetoken" " ") <> 2%nat) by (vm_compute; lia).
  assert (I3 : index (Hdr req3) "Authorization" = ["Wrong key"])
    by (vm_compute; reflexivity).
  assert (S3 : Split "Wrong key" " " = ["Wrong"; "key"]) by reflexivity.
  assert (P3 : "Wrong" <> Provider keyAuth) by discriminate.
  assert (I4 : index (Hdr req4) "Authorization" = ["Graze badkey"])
    by (vm_compute; reflexivity).
  assert (S4 : Split "Graze badkey" " " = [Provider keyAuth; "badkey"]) by reflexivity.
  assert (F4 : Finder keyAuth "badkey" req4 = ("", Some "No user found for: badkey"))
    by reflexivity.
  destruct (apikey_each_failure_calls_error_handler_once keyAuth thing req1 [])
    as (H1 & _).
  destruct (apikey_each_failure_calls_error_handler_once keyAuth thing req2 [])
    as (_ & H2 & _).
  destruct (apikey_each_failure_calls_error_handler_once keyAuth thing req3 [])
    as (_ & _ & H3 & _).
  destruct (apikey_each_failure_calls_error_handler_once keyAuth thing req4 [])
    as (_ & _ & _ & H4 & _).
  split; [split; [exact I1 | exact (H1 I1)]|].
  split; [split; [exact I2 | split; [exact L2 | exact (H2 _ _ I2 L2)]]|].
  split; [split; [exact I3 | split; [exact S3 | split; [exact P3 |
            exact (H3 _ _ _ _ I3 S3 P3)]]]|].
  split; [exact I4|]. split; [exact S4|]. split; [exact F4|].
  pose proof (H4 _ _ _ _ _ I4 S4 F4) as Hf.
  split; [exact Hf|]. exact (proj2 (proj2 (proj2 Hf))).
Defined.

(** The header [Graze ] (a provider and a trailing space) holds a single
    white-space separated token, yet it passes the format check: the
    Finder is asked about the empty key, and the failure reported is
    InvalidKey, not InvalidFormat. *)
Lemma apikey_trailing_space_passes_format_check :
  let req := request (withAuthorization "Graze ") in
  Hdr req !! "Authorization" = Some ["Graze "] /\
  Fields "Graze " = ["Graze"] /\
  Split "Graze " " " = ["Graze"; ""] /\
  calls (Handler keyAuth thing req) [] =
    [CallFind "" req;
     CallOnError req (InvalidKeyError "" "No user found for: ") 401].
Proof. vm_compute. repeat split; reflexivity. Qed.

Lemma apikey_absent_or_malformed_header_witness :
  let req1 := request ∅ in
  let req2 := request (withAuthorization "onlyonetoken") in
  (Hdr req1 !! "Authorization" = None /\
   calls (Handler keyAuth thing req1) [] = [CallOnError req1 NoHeaderError 401]) /\
  (Hdr req2 !! "Authorization" = Some ["onlyonetoken"] /\
   Count "onlyonetoken" " " <> 1%nat /\
   calls (Handler keyAuth thing req2) [] =
     [CallOnError req2 (InvalidFormatError "<provider> <apiKey>" "onlyonetoken") 401]).
Proof.
  intros req1 req2.
  assert (H1 : Hdr req1 !! "Authorization" = None) by reflexivity.
  assert (H2 : Hdr req2 !! "Authorization" = Some ["onlyonetoken"])
    by (vm_compute; reflexivity).
  assert (H3 : Count "onlyonetoken" " " <> 1%nat) by (vm_compute; lia).
  split; [split; [exact H1|] | split; [exact H2 | split; [exact H3|]]].
  - unfold calls.
    now rewrite (proj1 (apikey_absent_or_malformed_header keyAuth thing req1 []) H1).
  - unfold calls.
    now rewrite (proj2 (apikey_absent_or_malformed_header keyAuth thing req2 [])
                   "onlyonetoken" [] H2 H3).
Defined.

Lemma apikey_provider_then_finder_witness :
  let req := request (withAuthorization "Graze goodkey") in
  Hdr req !! "Authorization" = Some ["Graze goodkey"] /\
  Split "Graze goodkey" " " = ["Graze"; "goodkey"] /\
  Handler keyAuth thing req [] =
    (tt, ["hello alice"],
     [CallFind "goodkey" req; CallServeHTTP (saveUser req "alice")]) /\
  GetUser (saveUser req "alice") = Some "alice".
Proof.
  intros req.
  assert (H1 : Hdr req !! "Authorization" = Some ["Graze goodkey"])
    by (vm_compute; reflexivity).
  assert (H2 : Split "Graze goodkey" " " = ["Graze"; "goodkey"]) by reflexivity.
  split; [exact H1 | split; [exact H2|]].
  exact (proj2 (apikey_provider_then_finder keyAuth thing req []
                  "Graze goodkey" [] "Graze" "goodkey" H1 H2)
               eq_refl "alice" None eq_refl).
Defined.

Lemma apikey_empty_header_value_witness :
  let req := request (withAuthorization "") in
  Hdr req !! "Authorization" = Some [""] /\
  calls (Handler keyAuth thing req) [] =
    [CallOnError req (InvalidFormatError "<provider> <apiKey>" "") 401].
Proof.
  intros req.
  assert (H1 : Hdr req !! "Authorization" = Some [""]) by (vm_compute; reflexivity).
  split; [exact H1|]. unfold calls.
  now rewrite (proj1 (apikey_empty_header_value keyAuth thing req []) [] H1).
Defined.

End APIKeyRuns.

(** ** Response capture *)

Section ResponseCapture.
Import http handlers.
Implicit Types (l : LoggingResponseWriter) (ops pre post : list WriterOp).

Lemma applyAll_app l ops post :
  applyAll l (ops ++ post) = applyAll (applyAll l ops) post.
Proof. unfold applyAll. apply fold_left_app. Qed.

Lemma applyAll_cons l op ops :
  applyAll l (op :: ops) = applyAll (apply l op) ops.
Proof. reflexivity. Qed.

(** Every operation reaches the wrapped writer, in order. *)
Lemma applyAll_passed l ops : passed (applyAll l ops) = passed l ++ ops.
Proof.
  revert l. induction ops as [|op ops IH]; intros l.
  - simpl. now rewrite app_nil_r.
  - rewrite applyAll_cons, IH. destruct op; simpl; now rewrite <- app_assoc.
Qed.

(** The byte count only grows, by the bytes of each body write. *)
Lemma applyAll_Size l ops : Size (applyAll l ops) = Size l + totalBytes ops.
Proof.
  revert l. induction ops as [|op ops IH]; intros l.
  - simpl. lia.
  - rewrite applyAll_cons, IH. destruct op; simpl; lia.
Qed.

Lemma totalBytes_nonneg ops : 0 <= totalBytes ops.
Proof. induction ops as [|[] ops IH]; simpl; lia. Qed.

(** A recorded status is never changed. *)
Lemma Status_recorded_stays l ops s :
  Status l = Some s -> Status (applyAll l ops) = Some s.
Proof.
  revert l. induction ops as [|op ops IH]; intros l Hs; [exact Hs|].
  rewrite applyAll_cons. apply IH. destruct op; simpl; now rewrite Hs.
Qed.

(** Setting header values records no status. *)
Lemma Status_after_headers l pre :
  forallb isSetHeader pre = true -> Status (applyAll l pre) = Status l.
Proof.
  revert l. induction pre as [|op pre IH]; intros l Hp; [reflexivity|].
  simpl in Hp. apply andb_prop in Hp as [Hop Hp].
  rewrite applyAll_cons, IH by exact Hp. now destruct op.
Qed.

(** A fresh wrapper has no status recorded exactly as long as only header
    values were set. *)
Lemma Status_none_iff_headers (c : log.LogContext) pre :
  Status (applyAll (newWriter c) pre) = None <-> forallb isSetHeader pre = true.
Proof.
  split.
  - induction pre as [|op pre IH] using rev_ind; [reflexivity|].
    rewrite applyAll_app, forallb_app. simpl.
    destruct op as [k v|s|b]; simpl.
    + intros H. now rewrite IH.
    + destruct (Status (applyAll (newWriter c) pre)); discriminate.
    + destruct (Status (applyAll (newWriter c) pre)); discriminate.
  - intros Hp. now rewrite Status_after_headers.
Qed.

(** The explicitly set status is that of a status write reached with only
    header values set before it. *)
Lemma explicitStatus_Some ops s :
  explicitStatus ops = Some s <->
  exists pre post, ops = pre ++ WriteHeader s :: post /\ forallb isSetHeader pre = true.
Proof.
  split.
  - induction ops as [|op ops IH]; simpl; [discriminate|].
    destruct op as [k v|s'|b]; intros H.
    + destruct (IH H) as (pre & post & -> & Hp).
      now exists (SetHeader k v :: pre), post.
    + injection H as ->. now exists [], ops.
    + discriminate.
  - intros (pre & post & -> & Hp).
    induction pre as [|op pre IH]; [reflexivity|].
    simpl in Hp. apply andb_prop in Hp as [Hop Hp].
    destruct op; try discriminate. simpl. now apply IH.
Qed.

(** That is, of the status write that took effect: the one made while the
    wrapper had no status recorded. *)
Lemma explicitStatus_took_effect (c : log.LogContext) ops s :
  explicitStatus ops = Some s <->
  exists pre post,
    ops = pre ++ WriteHeader s :: post /\
    Status (applyAll (newWriter c) pre) = None.
Proof.
  rewrite explicitStatus_Some.
  split; intros (pre & post & Ho & Hp); exists pre, post; (split; [exact Ho|]).
  - now apply (Status_none_iff_headers c pre).
  - now apply (Status_none_iff_headers c pre).
Qed.

(** With no status set explicitly, the first body write is reached with
    only header values set before it. *)
Lemma first_write_split ops :
  explicitStatus ops = None -> existsb isWrite ops = true ->
  exists pre b post, ops = pre ++ Write b :: post /\ forallb isSetHeader pre = true.
Proof.
  induction ops as [|op ops IH]; simpl; intros H1 H2; [discriminate|].
  destruct op as [k v|s|b]; simpl in *.
  - destruct (IH H1 H2) as (pre & b & post & -> & Hp).
    now exists (SetHeader k v :: pre), b, post.
  - discriminate.
  - now exists [], b, ops.
Qed.

(** C1. For every sequence of operations on a fresh wrapper, the final
    status is the explicitly set one (that of the first status write, made
    before any body write), or 200 if body bytes were written and no
    status was explicitly set; and the final size is the sum of the byte
    counts of all body writes. *)
Theorem capture_status_and_size (c : log.LogContext) ops :
  (forall s, explicitStatus ops = Some s ->
     Status (applyAll (newWriter c) ops) = Some s) /\
  (explicitStatus ops = None -> existsb isWrite ops = true ->
   Status (applyAll (newWriter c) ops) = Some StatusOK) /\
  Size (applyAll (newWriter c) ops) = totalBytes ops.
Proof.
  assert (Hfirst : forall pre op post s,
             forallb isSetHeader pre = true ->
             Status (apply (applyAll (newWriter c) pre) op) = Some s ->
             Status (applyAll (newWriter c) (pre ++ op :: post)) = Some s).
  { intros pre op post s Hp Hs.
    rewrite applyAll_app, applyAll_cons. now apply Status_recorded_stays. }
  split; [|split].
  - intros s Hs. apply explicitStatus_Some in Hs as (pre & post & -> & Hp).
    apply Hfirst; [exact Hp|]. simpl. now rewrite Status_after_headers.
  - intros H1 H2. destruct (first_write_split ops H1 H2) as (pre & b & post & -> & Hp).
    apply Hfirst; [exact Hp|]. simpl. now rewrite Status_after_headers.
  - rewrite applyAll_Size. simpl. lia.
Qed.

(** With neither a status write nor a body write, no status is recorded. *)
Lemma capture_no_status ops (c : log.LogContext) :
  explicitStatus ops = None -> existsb isWrite ops = false ->
  Status (applyAll (newWriter c) ops) = None.
Proof.
  intros H1 H2. apply Status_none_iff_headers.
  induction ops as [|[] ops IH]; simpl in *; try discriminate; auto.
Qed.

End ResponseCapture.

Section ResponseCaptureRuns.
Import http handlers HandlersExample.

(** A status written after body bytes sets nothing: the status stays the
    200 recorded at the body write. *)
Example capture_status_after_body :
  let ops := [Write hello; WriteHeader 404] in
  explicitStatus ops = None /\
  Status (applyAll (newWriter writerContext) ops) = Some 200.
Proof. vm_compute. split; reflexivity. Qed.

Lemma capture_status_and_size_witness :
  let ops := [SetHeader "Content-Type" "text/plain"; WriteHeader 404;
              Write hello; WriteHeader 500; Write hello] in
  let ops' := [SetHeader "Content-Type" "text/plain"; Write hello; Write hello] in
  (explicitStatus ops = Some 404 /\
   Status (applyAll (newWriter writerContext) ops) = Some 404 /\
   Size (applyAll (newWriter writerContext) ops) = 10) /\
  (explicitStatus ops' = None /\ existsb isWrite ops' = true /\
   Status (applyAll (newWriter writerContext) ops') = Some 200 /\
   Size (applyAll (newWriter writerContext) ops') = 10).
Proof.
  intros ops ops'.
  destruct (capture_status_and_size writerContext ops) as (H1 & _ & H3).
  destruct (capture_status_and_size writerContext ops') as (_ & H2' & H3').
  assert (He : explicitStatus ops = Some 404) by reflexivity.
  assert (Hn : explicitStatus ops' = None) by reflexivity.
  assert (Hw : existsb isWrite ops' = true) by reflexivity.
  split.
  - split; [exact He|]. split; [exact (H1 404 He) | exact H3].
  - split; [exact Hn|]. split; [exact Hw|]. split; [exact (H2' Hn Hw) | exact H3'].
Defined.

End ResponseCaptureRuns.

(** ** URI normalisation *)

Section NormalizerFacts.
Import http url handlers.
Context {V : Type}.
Implicit Types (req : Request V) (u : URL).

Lemma isConnect2_true req :
  isConnect2 req = true <-> ProtoMajor req = 2 /\ Method req = "CONNECT".
Proof.
  unfold isConnect2. rewrite andb_true_iff, Z.eqb_eq, String.eqb_eq. tauto.
Qed.

Lemma isConnect2_false req :
  isConnect2 req = false <-> ~ (ProtoMajor req = 2 /\ Method req = "CONNECT").
Proof.
  rewrite <- isConnect2_true. destruct (isConnect2 req); intuition congruence.
Qed.

Lemma pathOrRoot_empty u : Path u = "" -> pathOrRoot u = "/".
Proof. unfold pathOrRoot. now intros ->. Qed.

Lemma pathOrRoot_path u : Path u <> "" -> pathOrRoot u = Path u.
Proof.
  unfold pathOrRoot. intros Hp.
  destruct (String.eqb (Path u) "") eqn:He; [|reflexivity].
  now apply String.eqb_eq in He.
Qed.

(** Both results read only the method, the protocol major version and the
    host of the request, and the path and raw query of the URL. *)
Lemma normalizer_reads req req' u u' :
  Method req = Method req' -> ProtoMajor req = ProtoMajor req' ->
  http.Host req = http.Host req' ->
  Path u = Path u' -> RawQuery u = RawQuery u' ->
  parseUri req u = parseUri req' u' /\ uriPath req u = uriPath req' u'.
Proof.
  unfold parseUri, uriPath, isConnect2, pathOrRoot.
  now intros -> -> -> -> ->.
Qed.

(** C2. For an HTTP/2 CONNECT request both normalisations return the
    host:port authority unchanged.  For any other request the path
    normalisation returns the path, or [/] when the path is empty, and
    drops the query; the uri normalisation returns that same path, with
    [?] and the raw query after it when the query is not empty. *)
Theorem uri_and_path_normalization req u :
  (ProtoMajor req = 2 /\ Method req = "CONNECT" ->
   parseUri req u = http.Host req /\ uriPath req u = http.Host req) /\
  (~ (ProtoMajor req = 2 /\ Method req = "CONNECT") ->
   (Path u <> "" -> uriPath req u = Path u) /\
   (Path u = "" -> uriPath req u = "/") /\
   (RawQuery u <> "" -> parseUri req u = uriPath req u +:+ "?" +:+ RawQuery u) /\
   (RawQuery u = "" -> parseUri req u = uriPath req u)).
Proof.
  split.
  - intros Hc. apply isConnect2_true in Hc. unfold parseUri, uriPath.
    now rewrite Hc.
  - intros Hc. apply isConnect2_false in Hc. unfold parseUri, uriPath.
    rewrite Hc. split; [|split; [|split]].
    + apply pathOrRoot_path.
    + apply pathOrRoot_empty.
    + intros Hq. destruct (String.eqb (RawQuery u) "") eqn:He; [|reflexivity].
      now apply String.eqb_eq in He.
    + intros ->. change (String.eqb "" "") with true. cbv iota.
      generalize (pathOrRoot u). intros s.
      induction s as [|c s IH]; [reflexivity|].
      change (String c s +:+ "") with (String c (s +:+ "")). congruence.
Qed.

End NormalizerFacts.

Section NormalizerRuns.
Import http url handlers HandlersExample.

(** The cases of [TestParseUri]. *)
Example parseUri_basic : parseUri basicRequest basicURL = "/".
Proof. reflexivity. Qed.
Example parseUri_http2 : parseUri http2Request http2URL = "www.example.com:443".
Proof. reflexivity. Qed.
Example parseUri_with_params : parseUri basicRequest paramsURL = "/path?query=value".
Proof. reflexivity. Qed.
Example parseUri_without_params : parseUri basicRequest pathURL = "/path".
Proof. reflexivity. Qed.

(** The cases of [TestUriPath]. *)
Example uriPath_basic : uriPath basicRequest basicURL = "/".
Proof. reflexivity. Qed.
Example uriPath_http2 : uriPath http2Request http2URL = "www.example.com:443".
Proof. reflexivity. Qed.
Example uriPath_with_params : uriPath basicRequest paramsURL = "/path".
Proof. reflexivity. Qed.
Example uriPath_without_params : uriPath basicRequest pathURL = "/path".
Proof. reflexivity. Qed.

Lemma uri_and_path_normalization_witness :
  (ProtoMajor http2Request = 2 /\ Method http2Request = "CONNECT") /\
  parseUri http2Request http2URL = "www.example.com:443" /\
  uriPath http2Request http2URL = "www.example.com:443" /\
  ~ (ProtoMajor basicRequest = 2 /\ Method basicRequest = "CONNECT") /\
  uriPath basicRequest paramsURL = "/path" /\
  parseUri basicRequest paramsURL = "/path?query=value" /\
  uriPath basicRequest basicURL = "/" /\
  parseUri basicRequest basicURL = "/".
Proof.
  assert (Hc : ProtoMajor http2Request = 2 /\ Method http2Request = "CONNECT")
    by (split; reflexivity).
  assert (Hn : ~ (ProtoMajor basicRequest = 2 /\ Method basicRequest = "CONNECT"))
    by (intros [H _]; discriminate H).
  destruct (proj1 (uri_and_path_normalization http2Request http2URL) Hc) as [H1 H2].
  destruct (proj2 (uri_and_path_normalization basicRequest paramsURL) Hn)
    as (H3 & _ & H4 & _).
  destruct (proj2 (uri_and_path_normalization basicRequest basicURL) Hn)
    as (_ & H5 & _ & H6).
  split; [exact Hc|]. split; [exact H1|]. split; [exact H2|]. split; [exact Hn|].
  split; [apply H3; discriminate|]. split; [apply H4; discriminate|].
  split; [now apply H5|]. now rewrite H6, H5.
Defined.

End NormalizerRuns.

(** ** Decimal rendering *)

Section DecimalFacts.
Import strconv.

Lemma append_cons c (s t : string) : String c s +:+ t = String c (s +:+ t).
Proof. reflexivity. Qed.








End DecimalFacts.

(** ** The statsd sink *)

Section StatsdSink.
Import http url handlers strconv.
Context {V Time : Type}.
Implicit Types (w : statsd.Client) (req : Request V) (u : URL) (ts : Time).


(** The endpoint tag does not see the query. *)
Lemma statsdTags_ignore_query req u q status :
  statsdTags req (mkURL (url.Host u) (Path u) q) status = statsdTags req u status.
Proof. reflexivity. Qed.


End StatsdSink.

Section StatsdRuns.
Import http url handlers HandlersExample.

(** The two requests of [TestStatsdLogging]. *)
Example statsd_test_get :
  writeStatsdLog testClient basicRequest basicURL tt 302000000 200 100 =
    [ "service.logging.live.request.response_time:302.000000|ms|#test,endpoint:/,statusCode:200,method:GET";
      "service.logging.live.request.count:1|c|#test,endpoint:/,statusCode:200,method:GET" ].
Proof. vm_compute. reflexivity. Qed.

Example statsd_test_post :
  writeStatsdLog testClient postRequest postURL tt 102000000 200 100 =
    [ "service.logging.live.request.response_time:102.000000|ms|#test,endpoint:/path/here,statusCode:200,method:POST";
      "service.logging.live.request.count:1|c|#test,endpoint:/path/here,statusCode:200,method:POST" ].
Proof. vm_compute. reflexivity. Qed.

End StatsdRuns.

(** ** The structured sink *)

Section StructuredSink.
Import http url handlers log.
Context {V Time : Type} (RFC3339Nano : Time -> string).
Implicit Types (w : LoggingResponseWriter) (context : LogContext)
         (req : Request V) (u : URL) (ts : Time).

(** Nanoseconds per second, as the float the duration is divided by. *)
Lemma nanoseconds_per_second :
  (float64 time.Second / float64 time.Nanosecond)%float = 1000000000%float.
Proof. reflexivity. Qed.

(** The record's fields: the event's, then the caller's, then the writer's,
    an earlier group winning over a later one. *)
Lemma structured_fields w context req u ts dur status size :
  map fields (writeStructuredLog RFC3339Nano w context req u ts dur status size) =
    [eventFields RFC3339Nano req u ts dur status size ∪
       (Get context ∪ Get (GetContext w))].
Proof. reflexivity. Qed.

(** Every fixed key is a key of the event literal. *)
Lemma eventFields_keys req u ts dur status size :
  Forall (fun k => is_Some (eventFields RFC3339Nano req u ts dur status size !! k))
         eventKeys.
Proof.
  unfold eventKeys. repeat (apply Forall_cons; split; [eexists; reflexivity|]).
  apply Forall_nil_2.
Qed.

Lemma eventFields_dur req u ts dur status size :
  eventFields RFC3339Nano req u ts dur status size !! "dur" =
    Some (VFloat (float64 (time.Nanoseconds dur) /
                  (float64 time.Second / float64 time.Nanosecond))%float).
Proof. reflexivity. Qed.

(** C7. The structured sink emits exactly one record, at the informational
    level; its fields contain every fixed key; its message is the method,
    the uri and the protocol separated by single spaces; and its duration
    field is the float quotient of the duration's nanoseconds by the
    nanoseconds in a second. *)
Theorem structured_log_one_info_record w context req u ts
    (dur : time.Duration) (status size : Z) :
  exists e,
    writeStructuredLog RFC3339Nano w context req u ts dur status size = [e] /\
    level e = InfoLevel /\
    Forall (fun k => is_Some (fields e !! k)) eventKeys /\
    message e = Method req +:+ " " +:+ parseUri req u +:+ " " +:+ Proto req /\
    fields e !! "dur" =
      Some (VFloat (float64 (time.Nanoseconds dur) /
                    (float64 time.Second / float64 time.Nanosecond))%float).
Proof.
  eexists. split; [reflexivity|]. split; [reflexivity|]. split; [|split].
  - simpl fields. eapply Forall_impl; [apply eventFields_keys|].
    intros k [v Hv]. exists v. apply lookup_union_Some_l. exact Hv.
  - reflexivity.
  - simpl fields. apply lookup_union_Some_l. apply eventFields_dur.
Qed.

(** C8. Whatever the caller's context and the writer's context hold, every
    fixed key of the emitted record has the value the event gives it. *)
Theorem structured_log_event_fields_win w context req u ts
    (dur : time.Duration) (status size : Z) (e : Entry) (k : string) :
  e ∈ writeStructuredLog RFC3339Nano w context req u ts dur status size ->
  k ∈ eventKeys ->
  fields e !! k = eventFields RFC3339Nano req u ts dur status size !! k /\
  is_Some (fields e !! k).
Proof.
  intros He Hk.
  apply list_elem_of_singleton in He. subst e. simpl fields.
  pose proof (eventFields_keys req u ts dur status size) as Hall.
  rewrite Forall_forall in Hall. destruct (Hall k Hk) as [v Hv].
  rewrite Hv. split; [|exists v]; apply lookup_union_Some_l; exact Hv.
Qed.

(** A field of the caller that the event does not name is kept. *)
Lemma structured_log_caller_field_kept w context req u ts dur status size k v :
  eventFields RFC3339Nano req u ts dur status size !! k = None ->
  Get context !! k = Some v ->
  Forall (fun e => fields e !! k = Some v)
         (writeStructuredLog RFC3339Nano w context req u ts dur status size).
Proof.
  intros Hn Hc. apply Forall_cons. split; [|apply Forall_nil_2].
  simpl fields. rewrite lookup_union_r by exact Hn.
  now apply lookup_union_Some_l.
Qed.

End StructuredSink.

Section StructuredRuns.
Import http url handlers log HandlersExample.

(** Durations of half a second and of a second and a half. *)
Example dur_half_second :
  eventFields (fun t : string => t) basicRequest basicURL "ts" 500000000 200 100 !! "dur" =
    Some (VFloat 0.5%float).
Proof. reflexivity. Qed.

Example dur_second_and_half :
  eventFields (fun t : string => t) basicRequest basicURL "ts" 1500000000 200 100 !! "dur" =
    Some (VFloat 1.5%float).
Proof. reflexivity. Qed.

(** The caller's context names [http.status] and [tag], the writer's names
    [http.uri]: the record keeps the event's values. *)
Lemma structured_log_event_fields_win_witness :
  let es := writeStructuredLog (fun t : string => t) (newWriter writerContext)
              callerContext basicRequest paramsURL "1983-05-26T03:30:45.736+01:00"
              302000000 200 100 in
  let e := mkEntry InfoLevel
             (eventFields (fun t : string => t) basicRequest paramsURL
                "1983-05-26T03:30:45.736+01:00" 302000000 200 100 ∪
              (Get callerContext ∪ Get writerContext))
             "GET /path?query=value HTTP/1.1" in
  e ∈ es /\ "http.status" ∈ eventKeys /\
  Get callerContext !! "http.status" = Some (VInt 999) /\
  Get writerContext !! "http.uri" = Some (VString "/elsewhere") /\
  fields e !! "http.status" = Some (VInt 200) /\
  fields e !! "http.uri" = Some (VString "/path?query=value").
Proof.
  intros es e.
  assert (He : e ∈ es) by apply list_elem_of_here.
  assert (Hk1 : "http.status" ∈ eventKeys)
    by (unfold eventKeys; do 6 apply list_elem_of_further; apply list_elem_of_here).
  assert (Hk2 : "http.uri" ∈ eventKeys)
    by (unfold eventKeys; do 3 apply list_elem_of_further; apply list_elem_of_here).
  split; [exact He|]. split; [exact Hk1|].
  split; [reflexivity|]. split; [reflexivity|]. split.
  - rewrite (proj1 (structured_log_event_fields_win (fun t : string => t)
                      (newWriter writerContext) callerContext basicRequest paramsURL
                      "1983-05-26T03:30:45.736+01:00" 302000000 200 100 e
                      "http.status" He Hk1)).
    reflexivity.
  - rewrite (proj1 (structured_log_event_fields_win (fun t : string => t)
                      (newWriter writerContext) callerContext basicRequest paramsURL
                      "1983-05-26T03:30:45.736+01:00" 302000000 200 100 e
                      "http.uri" He Hk2)).
    reflexivity.
Defined.

(** The caller's own field [module] is in the record too. *)
Example structured_log_keeps_module :
  map (fun e => fields e !! "module")
      (writeStructuredLog (fun t : string => t) (newWriter writerContext)
         callerContext basicRequest paramsURL "ts" 302000000 200 100) =
    [Some (VString "request.handler")].
Proof. reflexivity. Qed.

End StructuredRuns.

(** ** The shape of what [Split] returns *)

Section SplitShape.
Import GoStrings.

Lemma Split_nonempty (s : string) (sep : ascii) : Split s sep <> [].
Proof.
  pose proof (Split_length s sep) as Hl. destruct (Split s sep); [discriminate Hl | discriminate].
Qed.

(** No piece contains the separator. *)
Lemma Split_pieces (s : string) (sep : ascii) :
  Forall (fun p => Count p sep = 0%nat) (Split s sep).
Proof.
  induction s as [|c s IH]; simpl.
  - repeat constructor.
  - destruct (Ascii.eqb c sep) eqn:Hc.
    + constructor; [reflexivity | exact IH].
    + destruct (Split s sep) as [|p ps].
      * constructor; [simpl; now rewrite Hc | constructor].
      * inversion IH as [|? ? Hp Hps]; subst.
        constructor; [simpl; now rewrite Hc | exact Hps].
Qed.

(** Joining the pieces with the separator gives the string back. *)
Lemma Join_Split (s : string) (sep : ascii) :
  Join (Split s sep) (String sep "") = s.
Proof.
  induction s as [|c s IH]; [reflexivity|].
  pose proof (Split_nonempty s sep) as Hne. simpl.
  destruct (Ascii.eqb c sep) eqn:Hc.
  - apply Ascii.eqb_eq in Hc. subst c.
    destruct (Split s sep) as [|p ps]; [contradiction|].
    change (Join ("" :: p :: ps) (String sep ""))
      with (String sep (Join (p :: ps) (String sep ""))).
    now rewrite IH.
  - destruct (Split s sep) as [|p [|p' ps]]; [contradiction | |].
    + simpl in *. now rewrite IH.
    + change (Join (String c p :: p' :: ps) (String sep ""))
        with (String c (Join (p :: p' :: ps) (String sep ""))).
      now rewrite IH.
Qed.

Lemma Split_no_sep (s : string) (sep : ascii) :
  Count s sep = 0%nat -> Split s sep = [s].
Proof.
  induction s as [|c s IH]; [reflexivity|]. simpl.
  destruct (Ascii.eqb c sep); [discriminate|]. intros Hc.
  now rewrite IH.
Qed.

(** Two pieces: the string is the first piece, one separator, and the
    second piece, and neither piece holds a separator. *)
Lemma Split_two (s : string) (sep : ascii) (p k : string) :
  Split s sep = [p; k] ->
  s = p +:+ String sep k /\ Count p sep = 0%nat /\ Count k sep = 0%nat.
Proof.
  intros Hs. pose proof (Join_Split s sep) as Hj.
  pose proof (Split_pieces s sep) as Hp. rewrite Hs in Hj, Hp.
  apply Forall_cons in Hp as [H1 Hp]. apply Forall_cons in Hp as [H2 _].
  split; [|split; assumption].
  rewrite <- Hj. reflexivity.
Qed.

Lemma Split_join_two (p k : string) (sep : ascii) :
  Count p sep = 0%nat -> Count k sep = 0%nat ->
  Split (p +:+ String sep k) sep = [p; k].
Proof.
  intros Hp Hk. induction p as [|c p IH].
  - change ("" +:+ String sep k) with (String sep k). simpl.
    rewrite Ascii.eqb_refl. now rewrite Split_no_sep.
  - rewrite append_cons. simpl in *.
    destruct (Ascii.eqb c sep); [discriminate|].
    now rewrite IH.
Qed.

End SplitShape.

(** ** More on the API-key middleware *)

Section HandlerCases.
Import GoStrings http auth.
Context {V E W : Type}.
Implicit Types (a : APIKey V E W) (h : InnerHandler V W) (req : Request V) (w : W).

(** The five paths of a run, each with the condition that selects it. *)
Lemma Handler_cases a h req w :
  (index (Hdr req) "Authorization" = [] /\
   Handler a h req w =
     (tt, OnError a w req NoHeaderError StatusUnauthorized,
      [CallOnError req NoHeaderError StatusUnauthorized])) \/
  (exists v0 rest,
     index (Hdr req) "Authorization" = v0 :: rest /\
     length (Split v0 " ") <> 2%nat /\
     Handler a h req w =
       (tt, OnError a w req (InvalidFormatError "<provider> <apiKey>" v0) StatusUnauthorized,
        [CallOnError req (InvalidFormatError "<provider> <apiKey>" v0) StatusUnauthorized])) \/
  (exists v0 rest provider key,
     index (Hdr req) "Authorization" = v0 :: rest /\
     Split v0 " " = [provider; key] /\ provider <> Provider a /\
     Handler a h req w =
       (tt, OnError a w req (BadProviderError provider (Provider a)) StatusUnauthorized,
        [CallOnError req (BadProviderError provider (Provider a)) StatusUnauthorized])) \/
  (exists v0 rest key user e,
     index (Hdr req) "Authorization" = v0 :: rest /\
     Split v0 " " = [Provider a; key] /\ Finder a key req = (user, Some e) /\
     Handler a h req w =
       (tt, OnError a w req (InvalidKeyError key e) StatusUnauthorized,
        [CallFind key req; CallOnError req (InvalidKeyError key e) StatusUnauthorized])) \/
  (exists v0 rest key user,
     index (Hdr req) "Authorization" = v0 :: rest /\
     Split v0 " " = [Provider a; key] /\ Finder a key req = (user, None) /\
     Handler a h req w =
       (tt, h w (saveUser req user),
        [CallFind key req; CallServeHTTP (saveUser req user)])).
Proof.
  destruct (index (Hdr req) "Authorization") as [|v0 rest] eqn:Hi.
  { left. split; [reflexivity|]. now apply Handler_no_header. }
  right.
  destruct (decide (length (Split v0 " ") = 2%nat)) as [Hl|Hl].
  2:{ left. exists v0, rest. repeat split; [exact Hl|].
      now apply Handler_invalid_format with (rest := rest). }
  right.
  destruct (Split v0 " ") as [|p [|k [|? ?]]] eqn:Hs; try discriminate Hl.
  destruct (decide (p = Provider a)) as [->|Hp].
  2:{ left. exists v0, rest, p, k. repeat split; [exact Hs | exact Hp |].
      now apply Handler_bad_provider with (v0 := v0) (rest := rest) (key := k). }
  right.
  destruct (Finder a k req) as [user [e|]] eqn:Hf.
  - left. exists v0, rest, k, user, e. repeat split; [exact Hs | exact Hf |].
    now apply Handler_invalid_key with (v0 := v0) (rest := rest) (user := user).
  - right. exists v0, rest, k, user. repeat split; [exact Hs | exact Hf |].
    now apply Handler_key_valid with (v0 := v0) (rest := rest).
Qed.

Lemma index_cons_lookup req v0 rest :
  index (Hdr req) "Authorization" = v0 :: rest ->
  Hdr req !! "Authorization" = Some (v0 :: rest).
Proof.
  unfold index. destruct (Hdr req !! "Authorization") as [l|]; simpl; congruence.
Qed.

End HandlerCases.

(** Splits [H : c ∈ [c1; ...; cn]] into the equalities that are possible. *)
Ltac in_calls H :=
  repeat match type of H with
         | _ ∈ [] => apply elem_of_nil in H; contradiction
         | _ ∈ _ :: _ => apply elem_of_cons in H as [H|H]; [try discriminate H|]
         end.

Section APIKeyMore.
Import GoStrings http auth.
Context {V E W : Type}.
Implicit Types (a : APIKey V E W) (h : InnerHandler V W) (req : Request V) (w : W).

(** X1. Every run ends with exactly one call that answers the request,
    either the error handler or the inner handler, never both and never
    neither; before it comes at most one call, of the Finder. *)
Theorem apikey_exactly_one_outcome a h req w :
  (countCalls isOnError (calls (Handler a h req) w) +
   countCalls isServeHTTP (calls (Handler a h req) w) = 1)%nat /\
  (countCalls isFind (calls (Handler a h req) w) <= 1)%nat /\
  exists pre c,
    calls (Handler a h req) w = pre ++ [c] /\
    (isOnError c || isServeHTTP c) = true /\
    Forall (fun c' => isFind c' = true) pre.
Proof.
  unfold calls.
  destruct (Handler_cases a h req w)
    as [[_ ->] | [(v0 & rest & _ & _ & ->) | [(v0 & rest & p & k & _ & _ & _ & ->)
       | [(v0 & rest & k & user & e & _ & _ & _ & ->)
       | (v0 & rest & k & user & _ & _ & _ & ->)]]]]; unfold countCalls; simpl.
  - split; [reflexivity|]. split; [lia|].
    exists [], (CallOnError req NoHeaderError StatusUnauthorized). now repeat split.
  - split; [reflexivity|]. split; [lia|].
    exists [], (CallOnError req (InvalidFormatError "<provider> <apiKey>" v0) StatusUnauthorized).
    now repeat split.
  - split; [reflexivity|]. split; [lia|].
    exists [], (CallOnError req (BadProviderError p (Provider a)) StatusUnauthorized).
    now repeat split.
  - split; [reflexivity|]. split; [lia|].
    exists [CallFind k req], (CallOnError req (InvalidKeyError k e) StatusUnauthorized).
    split; [reflexivity|]. split; [reflexivity|]. now repeat constructor.
  - split; [reflexivity|]. split; [lia|].
    exists [CallFind k req], (CallServeHTTP (saveUser req user)).
    split; [reflexivity|]. split; [reflexivity|]. now repeat constructor.
Qed.

(** X2. The inner handler is reached only through a successful lookup: if
    it is called, the first Authorization value is the configured
    provider, one space and a key, the Finder returned an identity and no
    error for that key, and the request served carries that identity. *)
Theorem apikey_served_only_after_lookup a h req w r :
  CallServeHTTP r ∈ calls (Handler a h req) w ->
  exists rest key user,
    Hdr req !! "Authorization" = Some ((Provider a +:+ " " +:+ key) :: rest) /\
    Finder a key req = (user, None) /\
    r = saveUser req user /\
    calls (Handler a h req) w = [CallFind key req; CallServeHTTP r].
Proof.
  unfold calls.
  destruct (Handler_cases a h req w)
    as [[_ ->] | [(v0 & rest & _ & _ & ->) | [(v0 & rest & p & k & _ & _ & _ & ->)
       | [(v0 & rest & k & user & e & _ & _ & _ & ->)
       | (v0 & rest & k & user & Hi & Hs & Hf & ->)]]]]; simpl; intros Hin;
    in_calls Hin.
  injection Hin as ->.
  apply Split_two in Hs as (-> & _ & _). apply index_cons_lookup in Hi.
  exists rest, k, user. repeat split; assumption.
Qed.

(** X3. A first Authorization value made of the configured provider, one
    space and a key, neither holding a space, is served as soon as the
    Finder accepts the key, whatever further values the header has. *)
Theorem apikey_well_formed_header_is_served a h req w rest key user :
  Hdr req !! "Authorization" = Some ((Provider a +:+ " " +:+ key) :: rest) ->
  Count (Provider a) " " = 0%nat -> Count key " " = 0%nat ->
  Finder a key req = (user, None) ->
  Handler a h req w =
    (tt, h w (saveUser req user),
     [CallFind key req; CallServeHTTP (saveUser req user)]).
Proof.
  intros Hh Hp Hk Hf.
  apply Handler_key_valid with (v0 := Provider a +:+ " " +:+ key) (rest := rest).
  - now apply index_present.
  - now apply Split_join_two.
  - exact Hf.
Qed.

(** X4. The Finder is only ever asked about the request as it came in and
    a key without a space, cut from a first Authorization value that
    starts with the configured provider and one space. *)
Theorem apikey_finder_key_has_no_space a h req w key r :
  CallFind key r ∈ calls (Handler a h req) w ->
  r = req /\ Count key " " = 0%nat /\ Count (Provider a) " " = 0%nat /\
  exists rest,
    Hdr req !! "Authorization" = Some ((Provider a +:+ " " +:+ key) :: rest).
Proof.
  unfold calls.
  destruct (Handler_cases a h req w)
    as [[_ ->] | [(v0 & rest & _ & _ & ->) | [(v0 & rest & p & k & _ & _ & _ & ->)
       | [(v0 & rest & k & user & e & Hi & Hs & _ & ->)
       | (v0 & rest & k & user & Hi & Hs & _ & ->)]]]]; simpl; intros Hin;
    in_calls Hin.
  all: injection Hin as -> ->.
  all: apply Split_two in Hs as (-> & Hp & Hk); apply index_cons_lookup in Hi.
  all: split; [reflexivity|]; split; [exact Hk|]; split; [exact Hp|].
  all: now exists rest.
Qed.

(** X5. A configured provider name that holds a space rejects every
    request: the Finder and the inner handler are never called, and the
    error handler is called once. *)
Theorem apikey_provider_with_space_rejects_all a h req w :
  Count (Provider a) " " <> 0%nat ->
  countCalls isFind (calls (Handler a h req) w) = 0%nat /\
  countCalls isServeHTTP (calls (Handler a h req) w) = 0%nat /\
  countCalls isOnError (calls (Handler a h req) w) = 1%nat.
Proof.
  intros Hsp. unfold calls.
  destruct (Handler_cases a h req w)
    as [[_ ->] | [(v0 & rest & _ & _ & ->) | [(v0 & rest & p & k & _ & _ & _ & ->)
       | [(v0 & rest & k & user & e & _ & Hs & _ & _)
       | (v0 & rest & k & user & _ & Hs & _ & _)]]]]; simpl; auto.
  all: apply Split_two in Hs as (_ & Hp & _); contradiction.
Qed.

End APIKeyMore.

Section APIKeyMoreRuns.
Import GoStrings http auth AuthExample.

Lemma apikey_served_only_after_lookup_witness :
  let req := request (withAuthorization "Graze goodkey") in
  CallServeHTTP (saveUser req "alice") ∈ calls (Handler keyAuth thing req) [] /\
  exists rest key user,
    Hdr req !! "Authorization" = Some (("Graze" +:+ " " +:+ key) :: rest) /\
    users key req = (user, None) /\
    saveUser req "alice" = saveUser req user /\
    calls (Handler keyAuth thing req) [] =
      [CallFind key req; CallServeHTTP (saveUser req "alice")].
Proof.
  intros req.
  assert (Hin : CallServeHTTP (saveUser req "alice") ∈ calls (Handler keyAuth thing req) []).
  { vm_compute. apply list_elem_of_further, list_elem_of_here. }
  split; [exact Hin|].
  exact (apikey_served_only_after_lookup keyAuth thing req [] _ Hin).
Defined.

Lemma apikey_well_formed_header_is_served_witness :
  let req := request {[ "Authorization" := ["Graze goodkey"; "Other value"] ]} in
  Hdr req !! "Authorization" = Some (("Graze" +:+ " " +:+ "goodkey") :: ["Other value"]) /\
  Count "Graze" " " = 0%nat /\ Count "goodkey" " " = 0%nat /\
  users "goodkey" req = ("alice", None) /\
  Handler keyAuth thing req [] =
    (tt, ["hello alice"],
     [CallFind "goodkey" req; CallServeHTTP (saveUser req "alice")]).
Proof.
  intros req.
  assert (H1 : Hdr req !! "Authorization" =
               Some ((Provider keyAuth +:+ " " +:+ "goodkey") :: ["Other value"]))
    by (vm_compute; reflexivity).
  assert (H2 : Count (Provider keyAuth) " " = 0%nat) by reflexivity.
  assert (H3 : Count "goodkey" " " = 0%nat) by reflexivity.
  assert (H4 : Finder keyAuth "goodkey" req = ("alice", None)) by reflexivity.
  split; [exact H1|]. split; [exact H2|]. split; [exact H3|]. split; [exact H4|].
  exact (apikey_well_formed_header_is_served keyAuth thing req []
           ["Other value"] "goodkey" "alice" H1 H2 H3 H4).
Defined.

Lemma apikey_finder_key_has_no_space_witness :
  let req := request (withAuthorization "Graze badkey") in
  CallFind "badkey" req ∈ calls (Handler keyAuth thing req) [] /\
  Count "badkey" " " = 0%nat /\
  exists rest, Hdr req !! "Authorization" = Some ("Graze badkey" :: rest).
Proof.
  intros req.
  assert (Hin : CallFind "badkey" req ∈ calls (Handler keyAuth thing req) []).
  { vm_compute. apply list_elem_of_here. }
  split; [exact Hin|].
  destruct (apikey_finder_key_has_no_space keyAuth thing req [] "badkey" req Hin)
    as (_ & Hk & _ & Hh).
  split; [exact Hk | exact Hh].
Defined.

(** With the provider name [Graze Key], even the header that repeats it
    with a valid key is turned away, as an invalid format. *)
Lemma apikey_provider_with_space_rejects_all_witness :
  let a := mkAPIKey "Graze Key" users onError in
  let req := request (withAuthorization "Graze Key goodkey") in
  Count (Provider a) " " <> 0%nat /\
  countCalls isFind (calls (Handler a thing req) []) = 0%nat /\
  countCalls isServeHTTP (calls (Handler a thing req) []) = 0%nat /\
  countCalls isOnError (calls (Handler a thing req) []) = 1%nat.
Proof.
  intros a req.
  assert (Hsp : Count (Provider a) " " <> 0%nat) by (vm_compute; discriminate).
  split; [exact Hsp|].
  exact (apikey_provider_with_space_rejects_all a thing req [] Hsp).
Defined.

End APIKeyMoreRuns.

(** ** The messages of the authentication errors *)

Section ErrorMessages.
Import auth AuthErrors.
Context {E : Type} (message : E -> string).

(** X6. The message of an authentication error tells which of the four
    types it is; and two invalid-format errors with the same expected
    format and the same message were given the same header. *)
Theorem auth_error_message_tells_type (e1 e2 : AuthError E) :
  Error message e1 = Error message e2 ->
  sameType e1 e2 = true /\
  (forall format h1 h2,
     e1 = InvalidFormatError format h1 -> e2 = InvalidFormatError format h2 ->
     h1 = h2).
Proof.
  intros Hm. split.
  - destruct e1, e2; try reflexivity; exfalso; cbv in Hm; discriminate Hm.
  - intros format h1 h2 -> ->. unfold Error in Hm.
    repeat (apply (inj (String.app _)) in Hm). exact Hm.
Qed.

End ErrorMessages.

Section ErrorMessageRuns.
Import auth AuthErrors.

Example message_no_header :
  Error (fun e : string => e) NoHeaderError = "no Authorization header provided".
Proof. reflexivity. Qed.

Example message_invalid_format :
  Error (fun e : string => e) (InvalidFormatError "<provider> <apiKey>" "onlyonetoken") =
    "provided Authorization header in invalid format, expecting: <provider> <apiKey> got: onlyonetoken".
Proof. reflexivity. Qed.

Example message_bad_provider :
  Error (fun e : string => e) (BadProviderError "Wrong" "Graze") =
    "Authroziation provider does not match. Expecting: Graze got: Wrong".
Proof. reflexivity. Qed.

Example message_invalid_key :
  Error (fun e : string => e) (InvalidKeyError "badkey" "No user found for: badkey") =
    "provided api key: 'badkey' is not valid: No user found for: badkey".
Proof. reflexivity. Qed.

Lemma auth_error_message_tells_type_witness :
  let e1 := InvalidFormatError (E := string) "<provider> <apiKey>" "a b c" in
  let e2 := InvalidFormatError (E := string) "<provider> <apiKey>" "a b c" in
  Error (fun e : string => e) e1 = Error (fun e : string => e) e2 /\
  sameType e1 e2 = true.
Proof.
  intros e1 e2.
  assert (Hm : Error (fun e : string => e) e1 = Error (fun e : string => e) e2)
    by reflexivity.
  split; [exact Hm|].
  exact (proj1 (auth_error_message_tells_type (fun e : string => e) e1 e2 Hm)).
Defined.

End ErrorMessageRuns.
